(** * Identity and authorization core of the enpkg web application

    A shallow embedding of
    - [enpkg_interfaces/user.py]: the abstract [User] contract;
    - [website/models/core.py]: the SQLAlchemy-backed [User] and [Taxon]
      facades, their session handling and their [delete] operations.

    The Flask session is a dictionary with string keys, modelled as a
    [gmap string value]; the database tables are lists of rows.  Code
    that reads or writes the session or the database, or that raises, is
    a computation in a state-and-exception monad [M]. *)

From Stdlib Require Import ZArith String List Bool Lia.
From stdpp Require Import base gmap strings pretty.

Local Open Scope Z_scope.
Local Open Scope string_scope.

(** ** Python values held by the session *)

Inductive value : Type :=
| VNone
| VInt (n : Z)
| VStr (s : string).

(** Python's [==] between the values above: values of different types
    are never equal. *)
Definition value_eqb (a b : value) : bool :=
  match a, b with
  | VNone, VNone => true
  | VInt n, VInt m => Z.eqb n m
  | VStr s, VStr t => String.eqb s t
  | _, _ => false
  end.

(** ** Exceptions *)

Inductive exn : Type :=
| IdentifierNotFound
| NotLoggedIn
| Unauthorized
| APIException (msg : string)
| ValueError (msg : string)
| AttributeError (msg : string).

(** The spec's name for the failure that [from_orcid] raises when a
    session is already active. *)
Definition AlreadyAuthenticated : exn := APIException "User is already logged in.".

(** ** Rows and tables *)

(** Modelled from the spec: the row type of the [users] table
    ([alchemy_wrapper.models.User]), which is not among the sources; the
    spec lists its fields: [user_id], [name], [description] and the two
    role flags. *)
Record UsersTable : Type := mkUsersTable {
  users_id : Z;
  users_name : string;
  users_description : string;
  users_is_administrator : bool;
  users_is_moderator : bool
}.

(** Modelled from the spec: a row of the external-identifier mapping
    ([alchemy_wrapper.models.ORCID]), from an external identifier to an
    internal user identifier. *)
Record ORCIDTable : Type := mkORCIDTable {
  orcid_orcid : string;
  orcid_user_id : Z
}.

(** Modelled from the spec: the row type of the [taxons] table
    ([alchemy_wrapper.models.Taxon]): [record_id], [author_user_id] and
    the displayed fields. *)
Record TaxonTable : Type := mkTaxonTable {
  taxons_id : Z;
  taxons_name : string;
  taxons_description : string;
  taxons_author_user_id : Z
}.

Record Database : Type := mkDatabase {
  users : list UsersTable;
  orcids : list ORCIDTable;
  taxons : list TaxonTable
}.

(** The state a request runs in: the Flask session and the database. *)
Record World : Type := mkWorld {
  session : gmap string value;
  db : Database
}.

Definition with_session (w : World) (s : gmap string value) : World :=
  {| session := s; db := db w |}.

Definition with_db (w : World) (d : Database) : World :=
  {| session := session w; db := d |}.

(** ** The state-and-exception monad *)

Definition M (A : Type) : Type := World -> World * (exn + A).

Definition ret {A} (a : A) : M A := fun w => (w, inr a).

Definition raise {A} (e : exn) : M A := fun w => (w, inl e).

Definition bind {A B} (c : M A) (k : A -> M B) : M B :=
  fun w =>
    match c w with
    | (w', inr a) => k a w'
    | (w', inl e) => (w', inl e)
    end.

(** [try: c except ...: handler]; the handler decides which exceptions
    it takes and re-raises the others.  Effects of [c] before the raise
    stay. *)
Definition try_except {A} (c : M A) (handler : exn -> M A) : M A :=
  fun w =>
    match c w with
    | (w', inr a) => (w', inr a)
    | (w', inl e) => handler e w'
    end.

Declare Scope py_scope.
Delimit Scope py_scope with py.
Notation "x <- c ;; k" := (bind c (fun x => k))
  (at level 100, c at next level, right associativity) : py_scope.
Notation "c ;;; k" := (bind c (fun _ => k))
  (at level 100, right associativity) : py_scope.
Local Open Scope py_scope.

(** ** The Flask session *)

(** ["key" in session] *)
Definition session_contains (key : string) : M bool :=
  fun w => (w, inr (bool_decide (is_Some (session w !! key)))).

(** [session.get(key, default)] *)
Definition session_get (key : string) (default : value) : M value :=
  fun w => (w, inr (match session w !! key with Some v => v | None => default end)).

(** [session[key] = v] *)
Definition session_set (key : string) (v : value) : M unit :=
  fun w => (with_session w (<[key := v]> (session w)), inr tt).

(** [session.pop(key, default)] *)
Definition session_pop (key : string) (default : value) : M value :=
  fun w => (with_session w (delete key (session w)),
            inr (match session w !! key with Some v => v | None => default end)).

(** ** Classes and the names they define *)


(** ** [enpkg_interfaces/user.py]: the abstract user *)

Module UserInterface.

(** The state the abstract class keeps: [self._user_id]. *)
Record t : Type := mk { _user_id : Z }.

(** The interface of the samples a user is compared with
    ([enpkg_interfaces.sample.Sample]): only [get_author_user_id] is
    used here. *)
Class Sample (S : Type) : Type := { get_author_user_id : S -> Z }.

Section Abstract.
(** [is_valid_user_id], [is_administrator] and [is_moderator] are
    abstract: a subclass provides them. *)
Variable is_valid_user_id : Z -> bool.

(** [__init__] *)
Definition init (user_id : Z) : exn + t :=
  if negb (is_valid_user_id user_id)
  then inl (ValueError ("User ID #" ++ pretty user_id ++ " does not exist."))
  else inr {| _user_id := user_id |}.
End Abstract.

Definition get_user_id (self : t) : Z := _user_id self.

Definition is_author_of_sample {S} `{Sample S} (self : t) (sample : S) : bool :=
  Z.eqb (get_user_id self) (get_author_user_id sample).

(** The [def] statements of the class [User] of [user.py]. *)
Definition methods : list string :=
  [ "__init__"; "get_user_id"; "is_administrator"; "is_moderator";
    "is_author_of_sample"; "is_valid_user_id" ].

End UserInterface.

(** ** The persistence layer ([alchemy_wrapper.models]) *)

(** Modelled from the spec: [UsersTable.from_id], the Identity Store's
    [find_user_by_id(id) -> Row | NotFound]: the row of the [users]
    table whose identifier equals [identifier], and [IdentifierNotFound]
    (the exception [from_flask_session] catches) when there is none.  It
    changes nothing. *)
Definition UsersTable_from_id (identifier : value) : M UsersTable :=
  fun w =>
    match List.find (fun row => value_eqb (VInt (users_id row)) identifier)
                    (users (db w)) with
    | Some row => (w, inr row)
    | None => (w, inl IdentifierNotFound)
    end.

(** Modelled from the spec: the row's [delete()], the Identity Store's
    [delete_user(id)]: the row with this identifier leaves the [users]
    table. *)
Definition UsersTable_delete (row : UsersTable) : M unit :=
  fun w =>
    (with_db w {| users := List.filter (fun r => negb (Z.eqb (users_id r) (users_id row)))
                                       (users (db w));
                  orcids := orcids (db w);
                  taxons := taxons (db w) |},
     inr tt).

(** Modelled from the spec: the taxon row's [delete()], the removal of
    the record with this identifier from its table. *)
Definition TaxonTable_delete (row : TaxonTable) : M unit :=
  fun w =>
    (with_db w {| users := users (db w);
                  orcids := orcids (db w);
                  taxons := List.filter (fun r => negb (Z.eqb (taxons_id r) (taxons_id row)))
                                        (taxons (db w)) |},
     inr tt).

(** Modelled from the spec: [TaxonTable.from_id], the lookup of a record
    by identifier in its table, failing as the lookup of a user does
    when no row carries the identifier.  It changes nothing. *)
Definition TaxonTable_from_id (identifier : value) : M TaxonTable :=
  fun w =>
    match List.find (fun row => value_eqb (VInt (taxons_id row)) identifier)
                    (taxons (db w)) with
    | Some row => (w, inr row)
    | None => (w, inl IdentifierNotFound)
    end.

(** The identifier the store assigns to a new user: a positive integer
    above every identifier in use. *)
Definition next_user_id (us : list UsersTable) : Z :=
  1 + fold_right Z.max 0 (map users_id us).

(** Modelled from the spec: [ORCID.get_or_insert_user_from_orcid], the
    find-or-create of the Identity Store: look the external identifier
    up in the mapping; if present, resolve to the existing user; if
    absent, insert a new user row and a mapping row together.  A new
    user has no role and empty displayed fields. *)
Definition ORCID_get_or_insert_user_from_orcid (orcid : string) : M UsersTable :=
  fun w =>
    match List.find (fun m => String.eqb (orcid_orcid m) orcid) (orcids (db w)) with
    | Some m => UsersTable_from_id (VInt (orcid_user_id m)) w
    | None =>
        let user := {| users_id := next_user_id (users (db w));
                       users_name := "";
                       users_description := "";
                       users_is_administrator := false;
                       users_is_moderator := false |} in
        (with_db w {| users := users (db w) ++ [user];
                      orcids := orcids (db w)
                                  ++ [{| orcid_orcid := orcid;
                                         orcid_user_id := users_id user |}];
                      taxons := taxons (db w) |},
         inr user)
    end.

(** ** [website/models/core.py]: the concrete user *)

(** The records a user can be the author of ([Taxon], [Sample]): each
    carries its [author_user_id]. *)
Class Record (R : Type) : Type := { author_user_id : R -> Z }.

Module User.

(** [__init__]: the object keeps the row, [self._user]. *)
Record t : Type := mk { _user : UsersTable }.

(** Modelled from the spec: the identifier accessor of the concrete
    user ([get_id] in [core.py], [get_user_id] in the spec).  The base
    class [core.py] inherits it from is not among the sources; by the
    spec it is the [user_id] of the user's row. *)
Definition get_id (self : t) : Z := users_id (_user self).

(** Modelled from the spec: [is_author_of(record) -> bool], which
    [Taxon.delete] calls and no source file defines: it "compares own
    id to [record.author_user_id]", implemented once for every kind of
    record. *)
Definition is_author_of {R} `{Record R} (self : t) (record : R) : bool :=
  Z.eqb (get_id self) (author_user_id record).

Definition from_id (identifier : value) : M t :=
  row <- UsersTable_from_id identifier ;;
  ret (mk row).

Definition logout : M unit :=
  session_pop "user_id" VNone ;;;
  ret tt.

Definition is_authenticated : M bool :=
  session_contains "user_id".

Definition session_user_id : M value :=
  authenticated <- is_authenticated ;;
  if negb authenticated
  then raise NotLoggedIn
  else session_get "user_id" VNone.

(** The [except] branch ends without a [return] or a [raise]: the
    call returns Python's [None], here the [None] of [option]. *)
Definition from_flask_session : M (option t) :=
  try_except
    (identifier <- session_user_id ;;
     user <- from_id identifier ;;
     ret (Some user))
    (fun e =>
       match e with
       | IdentifierNotFound => logout ;;; ret None
       | _ => raise e
       end).

Definition from_orcid (orcid : string) : M t :=
  authenticated <- is_authenticated ;;
  if authenticated
  then raise (APIException "User is already logged in.")
  else
    user <- ORCID_get_or_insert_user_from_orcid orcid ;;
    session_set "user_id" (VInt (users_id user)) ;;;
    from_id (VInt (users_id user)).

Definition is_session_user (self : t) : M bool :=
  identifier <- session_user_id ;;
  ret (value_eqb (VInt (get_id self)) identifier).

Definition get_session_user_language : M value :=
  session_get "lang" (VStr "en").

Definition is_administrator (self : t) : bool :=
  users_is_administrator (_user self).

Definition is_moderator (self : t) : bool :=
  users_is_moderator (_user self).

(** A method called on the [None] that [from_flask_session] can
    return raises [AttributeError]. *)
Definition must_be_administrator : M unit :=
  user <- from_flask_session ;;
  match user with
  | None =>
      raise (AttributeError "'NoneType' object has no attribute 'is_administrator'")
  | Some user =>
      if negb (is_administrator user) then raise Unauthorized else ret tt
  end.

Definition must_be_moderator : M unit :=
  user <- from_flask_session ;;
  match user with
  | None =>
      raise (AttributeError "'NoneType' object has no attribute 'is_moderator'")
  | Some user =>
      if negb (is_moderator user) then raise Unauthorized else ret tt
  end.

Definition get_name (self : t) : string := users_name (_user self).

Definition get_description (self : t) : string := users_description (_user self).

Definition get_title (self : t) : string := get_name self.

Definition delete (self : t) : M unit :=
  is_session <- is_session_user self ;;
  (if negb is_session then must_be_administrator else ret tt) ;;;
  UsersTable_delete (_user self).

(** The [def] statements of the class [User] of [core.py]. *)
Definition methods : list string :=
  [ "__init__"; "from_id"; "from_flask_session"; "from_orcid"; "logout";
    "is_authenticated"; "session_user_id"; "is_session_user";
    "get_session_user_language"; "must_be_administrator"; "must_be_moderator";
    "get_description"; "get_name"; "is_administrator"; "is_moderator"; "delete";
    "get_sections"; "get_title"; "get_description" ].

End User.

(** ** [website/models/core.py]: the taxon *)

Module Taxon.

(** [__init__]: the object keeps the row, [self._taxon]. *)
Record t : Type := mk { _taxon : TaxonTable }.

#[global] Instance record : Record t :=
  {| author_user_id := fun self => taxons_author_user_id (_taxon self) |}.

Definition from_id (identifier : value) : M t :=
  row <- TaxonTable_from_id identifier ;;
  ret (mk row).

Definition get_name (self : t) : string := taxons_name (_taxon self).

Definition get_description (self : t) : string := taxons_description (_taxon self).

Definition get_section_header (self : t) : string := "Taxons".

Definition get_title (self : t) : string := get_name self.

Definition delete (self : t) : M unit :=
  user <- User.from_flask_session ;;
  match user with
  | None =>
      raise (AttributeError "'NoneType' object has no attribute 'is_administrator'")
  | Some user =>
      if negb (User.is_administrator user) && negb (User.is_author_of user self)
      then raise Unauthorized
      else TaxonTable_delete (_taxon self)
  end.

End Taxon.

(** ** [website/api_endpoints/login_api.py] *)

(** The [/logout] route: [User.logout()], then a redirect to ["/"]. *)
Definition logout_route : M string :=
  User.logout ;;;
  ret "/".

(** * Properties *)

(** The spec's Authorization Guard (section 4.2): the session user is
    the author or owner of the record, or is an administrator. *)
Definition author_or_admin (session_user : User.t) (owner : Z) : bool :=
  Z.eqb (User.get_id session_user) owner || User.is_administrator session_user.

(** A world used in the examples: a French-speaking session, an
    administrator (1), two plain users (7 and 9) and a taxon of user 7. *)
Definition example_db : Database :=
  {| users := [ mkUsersTable 1 "root" "" true true;
                mkUsersTable 7 "A" "" false false;
                mkUsersTable 9 "B" "" false true ];
     orcids := [ mkORCIDTable "0000-0001-5109-3700" 7 ];
     taxons := [ mkTaxonTable 3 "T" "" 7 ] |}.

Definition example_world (identifier : Z) : World :=
  {| session := <["user_id" := VInt identifier]> {["lang" := VStr "fr"]};
     db := example_db |}.

Definition anonymous_world : World :=
  {| session := {["lang" := VStr "fr"]}; db := example_db |}.

(** The row, the store and the state that a first login with a new
    external identifier leaves. *)
Definition created_user (w : World) : UsersTable :=
  {| users_id := next_user_id (users (db w));
     users_name := "";
     users_description := "";
     users_is_administrator := false;
     users_is_moderator := false |}.

Definition store_after_first_login (w : World) (orcid : string) : Database :=
  {| users := users (db w) ++ [created_user w];
     orcids := orcids (db w)
                 ++ [{| orcid_orcid := orcid; orcid_user_id := users_id (created_user w) |}];
     taxons := taxons (db w) |}.

Definition world_after_first_login (w : World) (orcid : string) : World :=
  {| session := <["user_id" := VInt (users_id (created_user w))]> (session w);
     db := store_after_first_login w orcid |}.

(** ** Values and tables *)

Lemma value_eqb_VInt (n : Z) (v : value) :
  value_eqb (VInt n) v = true -> v = VInt n.
Proof.
  destruct v as [ | m | s]; simpl; try discriminate.
  intros H. apply Z.eqb_eq in H. now subst.
Qed.

Lemma find_absent {A} (f : A -> bool) (l : list A) :
  (forall x, In x l -> f x = false) -> List.find f l = None.
Proof.
  induction l as [ | a l IH]; intros H; simpl; [reflexivity | ].
  rewrite (H a (or_introl eq_refl)). apply IH.
  intros x Hx. apply H. now right.
Qed.

Lemma find_present {A} (f : A -> bool) (l : list A) (x : A) :
  In x l -> f x = true -> exists y, List.find f l = Some y.
Proof.
  induction l as [ | a l IH]; intros Hin Hf; simpl; [destruct Hin | ].
  destruct (f a) eqn:Ha; [now exists a | ].
  destruct Hin as [-> | Hin]; [congruence | now apply IH].
Qed.

Lemma find_app_absent {A} (f : A -> bool) (l l' : list A) :
  List.find f l = None -> List.find f (l ++ l') = List.find f l'.
Proof.
  induction l as [ | a l IH]; simpl; [reflexivity | ].
  destruct (f a); [discriminate | exact IH].
Qed.

Lemma next_user_id_above (us : list UsersTable) (row : UsersTable) :
  In row us -> users_id row < next_user_id us.
Proof.
  unfold next_user_id.
  induction us as [ | a us IH]; simpl; [intros [] | ].
  intros [-> | Hin]; [lia | ].
  specialize (IH Hin). lia.
Qed.

Lemma next_user_id_positive (us : list UsersTable) : 0 < next_user_id us.
Proof.
  unfold next_user_id.
  induction us as [ | a us IH]; simpl; lia.
Qed.

(** ** The lookup by identifier *)

Lemma UsersTable_from_id_state (identifier : value) (w : World) :
  fst (UsersTable_from_id identifier w) = w.
Proof.
  unfold UsersTable_from_id. now destruct (List.find _ _).
Qed.

Lemma from_id_found (identifier : value) (w w' : World) (user : User.t) :
  User.from_id identifier w = (w', inr user) ->
  w' = w /\ identifier = VInt (User.get_id user) /\ In (User._user user) (users (db w)).
Proof.
  unfold User.from_id, bind, ret, UsersTable_from_id.
  destruct (List.find _ _) as [row | ] eqn:Hfind; [ | discriminate].
  intros [= <- <-].
  apply find_some in Hfind as [Hin Heq].
  apply value_eqb_VInt in Heq. now repeat split.
Qed.

(** ** The session user *)

Lemma session_user_id_some (w : World) (identifier : value) :
  session w !! "user_id" = Some identifier ->
  User.session_user_id w = (w, inr identifier).
Proof.
  intros H.
  unfold User.session_user_id, User.is_authenticated, session_contains, session_get, bind.
  rewrite bool_decide_eq_true_2 by (rewrite H; eauto).
  simpl. now rewrite H.
Qed.

Lemma session_user_id_none (w : World) :
  session w !! "user_id" = None ->
  User.session_user_id w = (w, inl NotLoggedIn).
Proof.
  intros H.
  unfold User.session_user_id, User.is_authenticated, session_contains, bind.
  rewrite bool_decide_eq_false_2; [reflexivity | ].
  rewrite H. intros [v Hv]. discriminate Hv.
Qed.

Lemma from_flask_session_valid (w : World) (identifier : value) (user : User.t) :
  session w !! "user_id" = Some identifier ->
  User.from_id identifier w = (w, inr user) ->
  User.from_flask_session w = (w, inr (Some user)).
Proof.
  intros Hs Hid.
  unfold User.from_flask_session, try_except, bind at 1.
  rewrite (session_user_id_some _ _ Hs).
  unfold bind. now rewrite Hid.
Qed.

Lemma from_flask_session_not_logged_in (w : World) :
  session w !! "user_id" = None ->
  User.from_flask_session w = (w, inl NotLoggedIn).
Proof.
  intros Hs.
  unfold User.from_flask_session, try_except, bind at 1.
  now rewrite (session_user_id_none _ Hs).
Qed.

Lemma from_flask_session_stale (w : World) (identifier : value) :
  session w !! "user_id" = Some identifier ->
  User.from_id identifier w = (w, inl IdentifierNotFound) ->
  User.from_flask_session w
  = (with_session w (delete "user_id" (session w)), inr None).
Proof.
  intros Hs Hid.
  unfold User.from_flask_session, try_except, bind at 1.
  rewrite (session_user_id_some _ _ Hs).
  unfold bind at 1. rewrite Hid. reflexivity.
Qed.

Lemma must_be_administrator_valid (w : World) (identifier : value) (user : User.t) :
  session w !! "user_id" = Some identifier ->
  User.from_id identifier w = (w, inr user) ->
  User.must_be_administrator w
  = (w, if User.is_administrator user then inr tt else inl Unauthorized).
Proof.
  intros Hs Hid.
  unfold User.must_be_administrator, bind.
  rewrite (from_flask_session_valid w identifier user Hs Hid).
  now destruct (User.is_administrator user).
Qed.

Lemma must_be_moderator_valid (w : World) (identifier : value) (user : User.t) :
  session w !! "user_id" = Some identifier ->
  User.from_id identifier w = (w, inr user) ->
  User.must_be_moderator w
  = (w, if User.is_moderator user then inr tt else inl Unauthorized).
Proof.
  intros Hs Hid.
  unfold User.must_be_moderator, bind.
  rewrite (from_flask_session_valid w identifier user Hs Hid).
  now destruct (User.is_moderator user).
Qed.

(** ** Lookup by identifier (C5) *)

(** C5: for every [user_id] that some row of the [users] table carries,
    [from_id] succeeds and the entity it returns has that identifier;
    for every [user_id] no row carries it fails with
    [IdentifierNotFound] (the spec's NotFound); and in either case, and
    for any argument at all, it leaves the session and the store as they
    were. *)
Theorem from_id_lookup (w : World) (user_id : Z) :
  (In user_id (map users_id (users (db w))) ->
   exists user,
     User.from_id (VInt user_id) w = (w, inr user) /\ User.get_id user = user_id)
  /\ (~ In user_id (map users_id (users (db w))) ->
      User.from_id (VInt user_id) w = (w, inl IdentifierNotFound))
  /\ (forall identifier, fst (User.from_id identifier w) = w).
Proof.
  split; [ | split].
  - intros Hin. apply in_map_iff in Hin as (row & Hrow & Hin).
    destruct (find_present (fun r => value_eqb (VInt (users_id r)) (VInt user_id))
                _ row Hin) as [found Hfound].
    { simpl. now apply Z.eqb_eq. }
    exists (User.mk found).
    unfold User.from_id, bind, ret, UsersTable_from_id. rewrite Hfound.
    split; [reflexivity | ].
    apply find_some in Hfound as [_ Heq]. simpl in Heq.
    now apply Z.eqb_eq in Heq.
  - intros Hnot.
    unfold User.from_id, bind, UsersTable_from_id.
    rewrite find_absent; [reflexivity | ].
    intros row Hin. simpl. apply Z.eqb_neq. intros Heq.
    apply Hnot, in_map_iff. now exists row.
  - intros identifier.
    unfold User.from_id, bind, ret, UsersTable_from_id.
    now destruct (List.find _ _).
Qed.

Lemma from_id_lookup_witness :
  (exists user,
     User.from_id (VInt 7) (example_world 9) = (example_world 9, inr user)
     /\ User.get_id user = 7)
  /\ User.from_id (VInt 8) (example_world 9) = (example_world 9, inl IdentifierNotFound).
Proof.
  split.
  - apply (from_id_lookup (example_world 9) 7). simpl. tauto.
  - apply (from_id_lookup (example_world 9) 8). simpl. lia.
Defined.

(** ** Role guards (C8) *)

(** C8: when the session holds an identifier that [from_id] resolves to
    a user, [must_be_administrator] returns without error if that user
    is an administrator and fails with [Unauthorized] if not, and
    [must_be_moderator] does the same with [is_moderator]; neither
    changes the state. *)
Theorem must_be_role_guard (w : World) (identifier : value) (user : User.t) :
  session w !! "user_id" = Some identifier ->
  User.from_id identifier w = (w, inr user) ->
  User.must_be_administrator w
  = (w, if User.is_administrator user then inr tt else inl Unauthorized)
  /\ User.must_be_moderator w
     = (w, if User.is_moderator user then inr tt else inl Unauthorized).
Proof.
  intros Hs Hid. split.
  - exact (must_be_administrator_valid w identifier user Hs Hid).
  - exact (must_be_moderator_valid w identifier user Hs Hid).
Qed.

Lemma must_be_role_guard_witness :
  User.must_be_administrator (example_world 9) = (example_world 9, inl Unauthorized)
  /\ User.must_be_moderator (example_world 9) = (example_world 9, inr tt).
Proof.
  apply (must_be_role_guard (example_world 9) (VInt 9)
           (User.mk (mkUsersTable 9 "B" "" false true))).
  - vm_compute. reflexivity.
  - vm_compute. reflexivity.
Defined.

(** ** Logout (C9, C10) *)

Lemma logout_eq (w : World) :
  User.logout w = (with_session w (delete "user_id" (session w)), inr tt).
Proof. reflexivity. Qed.

(** C9: [logout] never fails, whatever the session holds; after it the
    session has no ["user_id"], so [is_authenticated] answers [false];
    and a second [logout] succeeds too and leaves the state the first
    one left. *)
Theorem logout_total_idempotent (w : World) :
  exists w',
    User.logout w = (w', inr tt)
    /\ session w' !! "user_id" = None
    /\ User.is_authenticated w' = (w', inr false)
    /\ User.logout w' = (w', inr tt).
Proof.
  exists (with_session w (delete "user_id" (session w))).
  assert (Hgone : session (with_session w (delete "user_id" (session w))) !! "user_id" = None)
    by apply lookup_delete_eq.
  repeat split.
  - exact Hgone.
  - unfold User.is_authenticated, session_contains.
    rewrite bool_decide_eq_false_2; [reflexivity | ].
    rewrite Hgone. intros [v Hv]. discriminate Hv.
  - rewrite logout_eq. unfold with_session. simpl.
    now rewrite delete_delete_eq.
Qed.

(** C10: [logout] takes only ["user_id"] out of the session: every other
    key keeps its value, the store is untouched, and
    [get_session_user_language] answers after the logout what it
    answered before. *)
Theorem logout_frame (w : World) (key : string) :
  key <> "user_id" ->
  session (fst (User.logout w)) !! key = session w !! key
  /\ db (fst (User.logout w)) = db w
  /\ snd (User.get_session_user_language (fst (User.logout w)))
     = snd (User.get_session_user_language w).
Proof.
  intros Hkey. rewrite logout_eq. simpl.
  split; [ | split].
  - now apply lookup_delete_ne.
  - reflexivity.
  - unfold User.get_session_user_language, session_get. simpl.
    now rewrite lookup_delete_ne.
Qed.

Lemma logout_frame_witness :
  session (fst (User.logout (example_world 7))) !! "lang" = Some (VStr "fr")
  /\ db (fst (User.logout (example_world 7))) = example_db
  /\ snd (User.get_session_user_language (fst (User.logout (example_world 7))))
     = inr (VStr "fr").
Proof.
  apply (logout_frame (example_world 7) "lang"). discriminate.
Defined.

(** ** Deleting records (C1, C3) *)

Lemma taxon_delete_valid (w : World) (identifier : value) (user : User.t)
      (taxon : Taxon.t) :
  session w !! "user_id" = Some identifier ->
  User.from_id identifier w = (w, inr user) ->
  Taxon.delete taxon w
  = if User.is_administrator user || User.is_author_of user taxon
    then TaxonTable_delete (Taxon._taxon taxon) w
    else (w, inl Unauthorized).
Proof.
  intros Hs Hid.
  unfold Taxon.delete, bind.
  rewrite (from_flask_session_valid w identifier user Hs Hid).
  destruct (User.is_administrator user), (User.is_author_of user taxon); reflexivity.
Qed.

Lemma user_delete_valid (w : World) (identifier : value) (user target : User.t) :
  session w !! "user_id" = Some identifier ->
  User.from_id identifier w = (w, inr user) ->
  User.delete target w
  = if Z.eqb (User.get_id target) (User.get_id user) || User.is_administrator user
    then UsersTable_delete (User._user target) w
    else (w, inl Unauthorized).
Proof.
  intros Hs Hid.
  destruct (from_id_found _ _ _ _ Hid) as (_ & -> & _).
  unfold User.delete, User.is_session_user, bind at 1 2.
  rewrite (session_user_id_some _ _ Hs). simpl.
  destruct (Z.eqb (User.get_id target) (User.get_id user)); simpl.
  - reflexivity.
  - unfold bind.
    rewrite (must_be_administrator_valid w _ user Hs Hid).
    now destruct (User.is_administrator user).
Qed.

(** C1: with a session whose ["user_id"] resolves to a user, [delete] on
    a user and [delete] on a taxon both go by the author-or-admin
    predicate: when the session user is the record's author (for a user
    record, the user being deleted) or an administrator, the call is the
    underlying row's delete; otherwise it fails with [Unauthorized] and
    changes nothing. *)
Theorem delete_author_or_admin (w : World) (identifier : value) (user : User.t) :
  session w !! "user_id" = Some identifier ->
  User.from_id identifier w = (w, inr user) ->
  (forall target : User.t,
      User.delete target w
      = if author_or_admin user (User.get_id target)
        then UsersTable_delete (User._user target) w
        else (w, inl Unauthorized))
  /\ (forall taxon : Taxon.t,
         Taxon.delete taxon w
         = if author_or_admin user (author_user_id taxon)
           then TaxonTable_delete (Taxon._taxon taxon) w
           else (w, inl Unauthorized)).
Proof.
  intros Hs Hid. split.
  - intros target. rewrite (user_delete_valid w identifier user target Hs Hid).
    unfold author_or_admin. now rewrite (Z.eqb_sym (User.get_id target)).
  - intros taxon. rewrite (taxon_delete_valid w identifier user taxon Hs Hid).
    unfold author_or_admin, User.is_author_of. now rewrite orb_comm.
Qed.

Lemma delete_author_or_admin_witness :
  let B := User.mk (mkUsersTable 9 "B" "" false true) in
  let T := Taxon.mk (mkTaxonTable 3 "T" "" 7) in
  User.delete B (example_world 7) = (example_world 7, inl Unauthorized)
  /\ User.delete B (example_world 9) = UsersTable_delete (User._user B) (example_world 9)
  /\ User.delete B (example_world 1) = UsersTable_delete (User._user B) (example_world 1)
  /\ Taxon.delete T (example_world 9) = (example_world 9, inl Unauthorized)
  /\ Taxon.delete T (example_world 7) = TaxonTable_delete (Taxon._taxon T) (example_world 7)
  /\ Taxon.delete T (example_world 1) = TaxonTable_delete (Taxon._taxon T) (example_world 1).
Proof.
  intros B T.
  assert (H7 := delete_author_or_admin (example_world 7) (VInt 7)
                  (User.mk (mkUsersTable 7 "A" "" false false)) eq_refl eq_refl).
  assert (H9 := delete_author_or_admin (example_world 9) (VInt 9) B eq_refl eq_refl).
  assert (H1 := delete_author_or_admin (example_world 1) (VInt 1)
                  (User.mk (mkUsersTable 1 "root" "" true true)) eq_refl eq_refl).
  exact (conj (proj1 H7 B) (conj (proj1 H9 B) (conj (proj1 H1 B)
           (conj (proj2 H9 T) (conj (proj2 H7 T) (proj2 H1 T)))))).
Defined.




(** ** Login by external identifier (C4, C6) *)

Lemma get_or_insert_session (orcid : string) (w : World) :
  session (fst (ORCID_get_or_insert_user_from_orcid orcid w)) = session w.
Proof.
  unfold ORCID_get_or_insert_user_from_orcid.
  destruct (List.find _ (orcids (db w))) as [m | ]; [ | reflexivity].
  now rewrite UsersTable_from_id_state.
Qed.

Lemma from_orcid_authenticated (orcid : string) (w : World) :
  is_Some (session w !! "user_id") ->
  User.from_orcid orcid w = (w, inl AlreadyAuthenticated).
Proof.
  intros Hs.
  unfold User.from_orcid, User.is_authenticated, session_contains, bind at 1.
  now rewrite bool_decide_eq_true_2.
Qed.

Lemma from_orcid_anonymous (orcid : string) (w : World) :
  session w !! "user_id" = None ->
  User.from_orcid orcid w
  = (user <- ORCID_get_or_insert_user_from_orcid orcid ;;
     session_set "user_id" (VInt (users_id user)) ;;;
     User.from_id (VInt (users_id user))) w.
Proof.
  intros Hs.
  unfold User.from_orcid, User.is_authenticated, session_contains, bind at 1.
  rewrite bool_decide_eq_false_2; [reflexivity | ].
  rewrite Hs. intros [v Hv]. discriminate Hv.
Qed.

(** C4: called while the session holds a ["user_id"], [from_orcid] fails
    with [APIException "User is already logged in."] (the spec's
    AlreadyAuthenticated) and changes neither the session nor the store;
    and whenever it succeeds, the user it returns is the one the
    find-or-create gave, its identifier is what the session now holds
    under ["user_id"], and the rest of the session is as before. *)
Theorem from_orcid_session (w : World) (orcid : string) :
  (is_Some (session w !! "user_id") ->
   User.from_orcid orcid w = (w, inl AlreadyAuthenticated))
  /\ (forall (w' : World) (user : User.t),
         User.from_orcid orcid w = (w', inr user) ->
         (exists w1 row,
             ORCID_get_or_insert_user_from_orcid orcid w = (w1, inr row)
             /\ users_id row = User.get_id user)
         /\ session w' !! "user_id" = Some (VInt (User.get_id user))
         /\ session w' = <["user_id" := VInt (User.get_id user)]> (session w)).
Proof.
  split; [apply from_orcid_authenticated | ].
  intros w' user Hrun.
  destruct (session w !! "user_id") as [v | ] eqn:Hs.
  { rewrite from_orcid_authenticated in Hrun by (rewrite Hs; eauto). discriminate Hrun. }
  rewrite (from_orcid_anonymous _ _ Hs) in Hrun.
  unfold bind at 1 in Hrun.
  pose proof (get_or_insert_session orcid w) as Hsess.
  destruct (ORCID_get_or_insert_user_from_orcid orcid w) as [w1 [e | row]];
    [discriminate Hrun | ].
  simpl in Hsess. unfold bind, session_set in Hrun.
  apply from_id_found in Hrun as (-> & [= Hid] & _).
  simpl. rewrite Hsess, <- Hid.
  split; [ | split].
  - now exists w1, row.
  - apply lookup_insert_eq.
  - reflexivity.
Qed.

Lemma from_orcid_session_witness :
  User.from_orcid "0000-0001-5109-3700" (example_world 9)
  = (example_world 9, inl AlreadyAuthenticated)
  /\ session (example_world 7) !! "user_id"
     = Some (VInt (User.get_id (User.mk (mkUsersTable 7 "A" "" false false)))).
Proof.
  split.
  - apply (from_orcid_session (example_world 9) "0000-0001-5109-3700").
    vm_compute. eauto.
  - apply (proj2 (from_orcid_session anonymous_world "0000-0001-5109-3700")
             (example_world 7) (User.mk (mkUsersTable 7 "A" "" false false))).
    vm_compute. reflexivity.
Defined.

Lemma created_fresh (w : World) :
  ~ In (users_id (created_user w)) (map users_id (users (db w))).
Proof.
  intros Hin. apply in_map_iff in Hin as (row & Heq & Hin).
  apply next_user_id_above in Hin. simpl in Heq. lia.
Qed.

Lemma find_created (w : World) (orcid : string) (s : gmap string value) :
  UsersTable_from_id (VInt (users_id (created_user w)))
    {| session := s; db := store_after_first_login w orcid |}
  = ({| session := s; db := store_after_first_login w orcid |}, inr (created_user w)).
Proof.
  unfold UsersTable_from_id. simpl users.
  rewrite find_app_absent.
  - simpl. now rewrite Z.eqb_refl.
  - apply find_absent. intros row Hin. simpl. apply Z.eqb_neq.
    apply next_user_id_above in Hin. lia.
Qed.

Lemma first_from_orcid (w : World) (orcid : string) :
  session w !! "user_id" = None ->
  (forall m, In m (orcids (db w)) -> orcid_orcid m <> orcid) ->
  User.from_orcid orcid w
  = (world_after_first_login w orcid, inr (User.mk (created_user w))).
Proof.
  intros anonymous never_seen.
  rewrite (from_orcid_anonymous _ _ anonymous).
  unfold bind at 1, ORCID_get_or_insert_user_from_orcid.
  rewrite find_absent.
  - unfold bind, session_set, User.from_id, bind, with_session, with_db. simpl.
    change (UsersTable_from_id _ _)
      with (UsersTable_from_id (VInt (users_id (created_user w)))
              {| session := session (world_after_first_login w orcid);
                 db := store_after_first_login w orcid |}).
    now rewrite find_created.
  - intros m Hin. apply String.eqb_neq. now apply never_seen.
Qed.

Lemma second_from_orcid_after_logout (w : World) (orcid : string) :
  (forall m, In m (orcids (db w)) -> orcid_orcid m <> orcid) ->
  User.from_orcid orcid (fst (User.logout (world_after_first_login w orcid)))
  = (world_after_first_login w orcid, inr (User.mk (created_user w))).
Proof.
  intros never_seen.
  rewrite logout_eq. simpl fst.
  rewrite from_orcid_anonymous by apply lookup_delete_eq.
  unfold bind at 1, ORCID_get_or_insert_user_from_orcid. simpl orcids.
  rewrite find_app_absent.
  - simpl List.find. rewrite String.eqb_refl.
    change (UsersTable_from_id _ _)
      with (UsersTable_from_id (VInt (users_id (created_user w)))
              {| session := delete "user_id" (session (world_after_first_login w orcid));
                 db := store_after_first_login w orcid |}).
    rewrite find_created.
    unfold bind, session_set, User.from_id, bind, with_session. simpl.
    rewrite insert_delete_eq, insert_insert_eq.
    change (UsersTable_from_id _ _)
      with (UsersTable_from_id (VInt (users_id (created_user w)))
              {| session := session (world_after_first_login w orcid);
                 db := store_after_first_login w orcid |}).
    now rewrite find_created.
  - apply find_absent. intros m Hin. apply String.eqb_neq. now apply never_seen.
Qed.

(** C6, amended: for an external identifier no mapping row knows, and a
    session with no ["user_id"], [from_orcid] succeeds and creates one
    user, under an identifier no row had.  A second call in the same
    session fails with AlreadyAuthenticated.  A second call after
    [logout] succeeds, returns an entity with the same identifier, and
    leaves the store as the first call left it: it resolves by lookup. *)
Theorem from_orcid_twice (w : World) (orcid : string) :
  session w !! "user_id" = None ->
  (forall m, In m (orcids (db w)) -> orcid_orcid m <> orcid) ->
  exists (w1 : World) (user1 : User.t),
    User.from_orcid orcid w = (w1, inr user1)
    /\ users (db w1) = (users (db w) ++ [User._user user1])%list
    /\ ~ In (User.get_id user1) (map users_id (users (db w)))
    /\ User.from_orcid orcid w1 = (w1, inl AlreadyAuthenticated)
    /\ exists (w2 : World) (user2 : User.t),
        User.logout w1 = (w2, inr tt)
        /\ User.from_orcid orcid w2 = (w1, inr user2)
        /\ User.get_id user2 = User.get_id user1.
Proof.
  intros Hs Hnew.
  eexists. eexists.
  split; [exact (first_from_orcid w orcid Hs Hnew) | ].
  split; [reflexivity | ].
  split; [exact (created_fresh w) | ].
  split.
  - apply from_orcid_authenticated. simpl. rewrite lookup_insert_eq. eauto.
  - eexists. eexists.
    split; [apply logout_eq | ].
    split; [exact (second_from_orcid_after_logout w orcid Hnew) | reflexivity].
Qed.

Lemma from_orcid_twice_witness :
  exists (w1 : World) (user1 : User.t),
    User.from_orcid "0000-0002-1825-0097" anonymous_world = (w1, inr user1)
    /\ users (db w1) = (users example_db ++ [User._user user1])%list
    /\ ~ In (User.get_id user1) (map users_id (users example_db))
    /\ User.from_orcid "0000-0002-1825-0097" w1 = (w1, inl AlreadyAuthenticated)
    /\ exists (w2 : World) (user2 : User.t),
        User.logout w1 = (w2, inr tt)
        /\ User.from_orcid "0000-0002-1825-0097" w2 = (w1, inr user2)
        /\ User.get_id user2 = User.get_id user1.
Proof.
  apply (from_orcid_twice anonymous_world "0000-0002-1825-0097").
  - vm_compute. reflexivity.
  - intros m [<- | []]. discriminate.
Defined.

(** C6 as the spec states it fails: after a first successful
    [from_orcid], a second call in the same session does not succeed. *)
Lemma from_orcid_twice_same_session :
  session anonymous_world !! "user_id" = None
  /\ (forall m, In m (orcids (db anonymous_world)) ->
                orcid_orcid m <> "0000-0002-1825-0097")
  /\ exists (w1 : World) (user1 : User.t),
      User.from_orcid "0000-0002-1825-0097" anonymous_world = (w1, inr user1)
      /\ ~ exists (w2 : World) (user2 : User.t),
            User.from_orcid "0000-0002-1825-0097" w1 = (w2, inr user2).
Proof.
  split; [vm_compute; reflexivity | ].
  split; [intros m [<- | []]; discriminate | ].
  eexists. eexists.
  split; [vm_compute; reflexivity | ].
  intros (w2 & user2 & Hrun). vm_compute in Hrun. discriminate Hrun.
Qed.

(** ** The session user behind a stale identifier (C2) *)

(** C2: what [from_flask_session] does on the three kinds of session.
    With no ["user_id"] it fails with [NotLoggedIn]; with one that
    resolves it returns the user; with one that no row carries (8 here)
    it clears ["user_id"], keeps the rest of the session, and returns
    [None] without raising, so that [must_be_administrator] then fails
    on the [None] with [AttributeError], not with [NotLoggedIn]. *)
Theorem from_flask_session_stale_identifier :
  User.from_flask_session anonymous_world = (anonymous_world, inl NotLoggedIn)
  /\ User.from_flask_session (example_world 7)
     = (example_world 7, inr (Some (User.mk (mkUsersTable 7 "A" "" false false))))
  /\ User.from_id (VInt 8) (example_world 8) = (example_world 8, inl IdentifierNotFound)
  /\ User.from_flask_session (example_world 8) = (anonymous_world, inr None)
  /\ User.must_be_administrator (example_world 8)
     = (anonymous_world,
        inl (AttributeError "'NoneType' object has no attribute 'is_administrator'")).
Proof.
  split; [apply from_flask_session_not_logged_in; reflexivity | ].
  split; [now apply from_flask_session_valid with (identifier := VInt 7) | ].
  assert (Hstale : User.from_flask_session (example_world 8) = (anonymous_world, inr None)).
  { rewrite (from_flask_session_stale (example_world 8) (VInt 8)); [ | reflexivity ..].
    unfold with_session, anonymous_world, example_world. simpl.
    now rewrite delete_insert_eq, delete_id. }
  split; [reflexivity | ].
  split; [exact Hstale | ].
  unfold User.must_be_administrator, bind. now rewrite Hstale.
Qed.

(** ** Further facts about the store and the interface *)

Lemma UsersTable_delete_removes (row : UsersTable) (w : World) :
  exists w',
    UsersTable_delete row w = (w', inr tt)
    /\ session w' = session w
    /\ ~ In (users_id row) (map users_id (users (db w'))).
Proof.
  eexists. split; [reflexivity | ]. split; [reflexivity | ].
  simpl. intros Hin. apply in_map_iff in Hin as (r & Heq & Hin).
  apply filter_In in Hin as [_ Hne].
  apply negb_true_iff, Z.eqb_neq in Hne. contradiction.
Qed.

Lemma TaxonTable_delete_removes (row : TaxonTable) (w : World) :
  exists w',
    TaxonTable_delete row w = (w', inr tt)
    /\ session w' = session w
    /\ ~ In (taxons_id row) (map taxons_id (taxons (db w'))).
Proof.
  eexists. split; [reflexivity | ]. split; [reflexivity | ].
  simpl. intros Hin. apply in_map_iff in Hin as (r & Heq & Hin).
  apply filter_In in Hin as [_ Hne].
  apply negb_true_iff, Z.eqb_neq in Hne. contradiction.
Qed.

Lemma init_get_user_id (is_valid_user_id : Z -> bool) (user_id : Z) (self : UserInterface.t) :
  UserInterface.init is_valid_user_id user_id = inr self ->
  is_valid_user_id user_id = true /\ UserInterface.get_user_id self = user_id.
Proof.
  unfold UserInterface.init.
  destruct (is_valid_user_id user_id); simpl; [ | discriminate].
  intros [= <-]. now split.
Qed.

(** * Further properties of the session and the guards *)

(** ** Every outcome of [from_flask_session] *)

Lemma from_id_cases (identifier : value) (w : World) :
  (exists user, User.from_id identifier w = (w, inr user))
  \/ User.from_id identifier w = (w, inl IdentifierNotFound).
Proof.
  unfold User.from_id, bind, ret, UsersTable_from_id.
  destruct (List.find _ _) as [row | ]; [left; now exists (User.mk row) | now right].
Qed.

Lemma from_id_not_found (identifier : value) (w : World) :
  User.from_id identifier w = (w, inl IdentifierNotFound) ->
  forall row, In row (users (db w)) -> value_eqb (VInt (users_id row)) identifier = false.
Proof.
  unfold User.from_id, bind, ret, UsersTable_from_id.
  destruct (List.find _ _) as [row | ] eqn:Hfind; [discriminate | ].
  intros _. exact (find_none _ _ Hfind).
Qed.

(** The three kinds of session: anonymous, resolved and stale. *)
Lemma session_trichotomy (w : World) :
  session w !! "user_id" = None
  \/ (exists identifier user,
         session w !! "user_id" = Some identifier
         /\ User.from_id identifier w = (w, inr user))
  \/ (exists identifier,
         session w !! "user_id" = Some identifier
         /\ User.from_id identifier w = (w, inl IdentifierNotFound)).
Proof.
  destruct (session w !! "user_id") as [identifier | ]; [ | now left].
  right. destruct (from_id_cases identifier w) as [[user Hid] | Hid].
  - left. now exists identifier, user.
  - right. now exists identifier.
Qed.

Lemma from_flask_session_some (w w' : World) (user : User.t) :
  User.from_flask_session w = (w', inr (Some user)) ->
  w' = w
  /\ exists identifier,
      session w !! "user_id" = Some identifier
      /\ User.from_id identifier w = (w, inr user).
Proof.
  intros Hrun.
  destruct (session_trichotomy w) as [Hs | [(identifier & u & Hs & Hid) | (identifier & Hs & Hid)]].
  - rewrite (from_flask_session_not_logged_in w Hs) in Hrun. discriminate Hrun.
  - rewrite (from_flask_session_valid w identifier u Hs Hid) in Hrun.
    injection Hrun as <- <-. split; [reflexivity | now exists identifier].
  - rewrite (from_flask_session_stale w identifier Hs Hid) in Hrun. discriminate Hrun.
Qed.

(** X1: whatever the session and the store hold, [from_flask_session]
    ends in one of three ways and never touches the store.  With no
    ["user_id"] it raises [NotLoggedIn] and changes nothing.  With a
    ["user_id"] that a row of the [users] table carries it returns a
    user with that identifier, built on a row of the table, and changes
    nothing.  With a ["user_id"] that no row carries it returns [None]
    and removes ["user_id"] from the session.  No other exception, and
    in particular no [IdentifierNotFound], comes out of it. *)
Theorem from_flask_session_outcomes (w : World) :
  exists (w' : World) (r : exn + option User.t),
    User.from_flask_session w = (w', r)
    /\ db w' = db w
    /\ ((r = inl NotLoggedIn /\ w' = w /\ session w !! "user_id" = None)
        \/ (exists user,
               r = inr (Some user) /\ w' = w
               /\ session w !! "user_id" = Some (VInt (User.get_id user))
               /\ In (User._user user) (users (db w)))
        \/ (r = inr None
            /\ w' = with_session w (delete "user_id" (session w))
            /\ exists identifier,
                session w !! "user_id" = Some identifier
                /\ forall row, In row (users (db w)) ->
                               value_eqb (VInt (users_id row)) identifier = false)).
Proof.
  destruct (session_trichotomy w) as [Hs | [(identifier & u & Hs & Hid) | (identifier & Hs & Hid)]].
  - exists w, (inl NotLoggedIn).
    split; [now apply from_flask_session_not_logged_in | ].
    split; [reflexivity | now left].
  - exists w, (inr (Some u)).
    split; [now apply from_flask_session_valid with (identifier := identifier) | ].
    split; [reflexivity | ].
    right; left. exists u.
    destruct (from_id_found _ _ _ _ Hid) as (_ & Heq & Hin).
    rewrite <- Heq. now repeat split.
  - exists (with_session w (delete "user_id" (session w))), (inr None).
    split; [now apply from_flask_session_stale with (identifier := identifier) | ].
    split; [reflexivity | ].
    right; right. repeat split.
    exists identifier. split; [exact Hs | now apply from_id_not_found].
Qed.

(** X2: the user that [from_flask_session] returns is the session user:
    the call changed nothing, ["user_id"] holds that user's identifier,
    [is_authenticated] answers [true] and [is_session_user] on that user
    answers [true]. *)
Theorem session_user_round_trip (w w' : World) (user : User.t) :
  User.from_flask_session w = (w', inr (Some user)) ->
  w' = w
  /\ session w !! "user_id" = Some (VInt (User.get_id user))
  /\ User.is_authenticated w = (w, inr true)
  /\ User.is_session_user user w = (w, inr true).
Proof.
  intros Hrun.
  destruct (from_flask_session_some w w' user Hrun) as (-> & identifier & Hs & Hid).
  destruct (from_id_found _ _ _ _ Hid) as (_ & -> & _).
  split; [reflexivity | ]. split; [exact Hs | ]. split.
  - unfold User.is_authenticated, session_contains.
    rewrite bool_decide_eq_true_2; [reflexivity | rewrite Hs; eauto].
  - unfold User.is_session_user, bind.
    rewrite (session_user_id_some _ _ Hs). unfold ret. simpl.
    now rewrite Z.eqb_refl.
Qed.

Lemma session_user_round_trip_witness :
  session (example_world 7) !! "user_id" = Some (VInt 7)
  /\ User.is_session_user (User.mk (mkUsersTable 7 "A" "" false false)) (example_world 7)
     = (example_world 7, inr true).
Proof.
  destruct (session_user_round_trip (example_world 7) (example_world 7)
              (User.mk (mkUsersTable 7 "A" "" false false)) eq_refl)
    as (_ & Hs & _ & Hsu).
  exact (conj Hs Hsu).
Defined.

(** ** Login, then the session *)

Lemma from_id_state (identifier : value) (w : World) :
  fst (User.from_id identifier w) = w.
Proof.
  destruct (from_id_cases identifier w) as [[user ->] | ->]; reflexivity.
Qed.

Lemma from_orcid_success (orcid : string) (w w' : World) (user : User.t) :
  User.from_orcid orcid w = (w', inr user) ->
  session w !! "user_id" = None
  /\ session w' = <["user_id" := VInt (User.get_id user)]> (session w)
  /\ db w' = db (fst (ORCID_get_or_insert_user_from_orcid orcid w))
  /\ User.from_id (VInt (User.get_id user)) w' = (w', inr user).
Proof.
  intros Hrun.
  destruct (session w !! "user_id") as [v | ] eqn:Hs.
  { rewrite from_orcid_authenticated in Hrun by (rewrite Hs; eauto). discriminate Hrun. }
  split; [reflexivity | ].
  rewrite (from_orcid_anonymous _ _ Hs) in Hrun.
  unfold bind at 1 in Hrun.
  pose proof (get_or_insert_session orcid w) as Hsess.
  destruct (ORCID_get_or_insert_user_from_orcid orcid w) as [w1 [e | row]];
    [discriminate Hrun | ].
  simpl in Hsess. unfold bind, session_set in Hrun.
  pose proof Hrun as Hid.
  apply from_id_found in Hrun as (-> & [= Heq] & _).
  rewrite Heq in Hid. simpl. rewrite Heq, <- Hsess.
  split; [reflexivity | ]. split; [reflexivity | exact Hid].
Qed.

(** X3: a successful [from_orcid] leaves a session that resolves to the
    user it returned: [is_authenticated] answers [true],
    [from_flask_session] returns that same user without changing
    anything, and [is_session_user] on it answers [true]. *)
Theorem login_then_session (orcid : string) (w w' : World) (user : User.t) :
  User.from_orcid orcid w = (w', inr user) ->
  User.is_authenticated w' = (w', inr true)
  /\ User.from_flask_session w' = (w', inr (Some user))
  /\ User.is_session_user user w' = (w', inr true).
Proof.
  intros Hrun.
  destruct (from_orcid_success orcid w w' user Hrun) as (_ & Hsess & _ & Hid).
  assert (Hs : session w' !! "user_id" = Some (VInt (User.get_id user)))
    by (rewrite Hsess; apply lookup_insert_eq).
  split; [ | split].
  - unfold User.is_authenticated, session_contains.
    rewrite bool_decide_eq_true_2; [reflexivity | rewrite Hs; eauto].
  - exact (from_flask_session_valid w' _ user Hs Hid).
  - unfold User.is_session_user, bind.
    rewrite (session_user_id_some _ _ Hs). unfold ret. simpl.
    now rewrite Z.eqb_refl.
Qed.

Lemma login_then_session_witness :
  User.from_flask_session (example_world 7)
  = (example_world 7, inr (Some (User.mk (mkUsersTable 7 "A" "" false false)))).
Proof.
  apply (login_then_session "0000-0001-5109-3700" anonymous_world (example_world 7)
           (User.mk (mkUsersTable 7 "A" "" false false))).
  vm_compute. reflexivity.
Defined.

(** X4: [logout] undoes what a successful [from_orcid] did to the
    session: after the two the session is exactly the one before the
    login, while the store stays as the login left it. *)
Theorem login_logout_round_trip (orcid : string) (w w' : World) (user : User.t) :
  User.from_orcid orcid w = (w', inr user) ->
  session (fst (User.logout w')) = session w
  /\ db (fst (User.logout w')) = db w'.
Proof.
  intros Hrun.
  destruct (from_orcid_success orcid w w' user Hrun) as (Hs & Hsess & _ & _).
  rewrite logout_eq. simpl. split; [ | reflexivity].
  rewrite Hsess, delete_insert_eq. now apply delete_id.
Qed.

Lemma login_logout_round_trip_witness :
  session (fst (User.logout (example_world 7))) = session anonymous_world
  /\ db (fst (User.logout (example_world 7))) = db (example_world 7).
Proof.
  apply (login_logout_round_trip "0000-0001-5109-3700" anonymous_world (example_world 7)
           (User.mk (mkUsersTable 7 "A" "" false false))).
  vm_compute. reflexivity.
Defined.

(** X5: whether it succeeds or fails, [from_orcid] reads and writes no
    session key but ["user_id"]: every other key keeps its value, and
    [get_session_user_language] answers after it what it answered
    before. *)
Theorem from_orcid_session_frame (orcid : string) (w : World) (key : string) :
  key <> "user_id" ->
  session (fst (User.from_orcid orcid w)) !! key = session w !! key
  /\ snd (User.get_session_user_language (fst (User.from_orcid orcid w)))
     = snd (User.get_session_user_language w).
Proof.
  intros Hkey.
  assert (Hframe : forall k, k <> "user_id" ->
            session (fst (User.from_orcid orcid w)) !! k = session w !! k).
  { intros k Hk.
    destruct (session w !! "user_id") as [v | ] eqn:Hs.
    - rewrite from_orcid_authenticated by (rewrite Hs; eauto). reflexivity.
    - rewrite (from_orcid_anonymous _ _ Hs). unfold bind at 1.
      pose proof (get_or_insert_session orcid w) as Hsess.
      destruct (ORCID_get_or_insert_user_from_orcid orcid w) as [w1 [e | row]];
        simpl in Hsess; [now rewrite <- Hsess | ].
      unfold bind, session_set.
      match goal with
      | |- context [User.from_id ?i ?x] =>
          pose proof (from_id_state i x) as Hst;
          destruct (User.from_id i x) as [w2 [e | u]]; simpl in Hst; subst w2
      end; simpl; rewrite lookup_insert_ne by congruence; now rewrite Hsess. }
  split; [now apply Hframe | ].
  unfold User.get_session_user_language, session_get. simpl.
  now rewrite Hframe.
Qed.

Lemma from_orcid_session_frame_witness :
  session (fst (User.from_orcid "0000-0002-1825-0097" anonymous_world)) !! "lang"
  = Some (VStr "fr").
Proof.
  apply (from_orcid_session_frame "0000-0002-1825-0097" anonymous_world "lang").
  discriminate.
Defined.

(** ** The guards and the deletes on an anonymous or a stale session *)

Lemma must_be_administrator_anonymous (w : World) :
  session w !! "user_id" = None ->
  User.must_be_administrator w = (w, inl NotLoggedIn).
Proof.
  intros Hs. unfold User.must_be_administrator, bind.
  now rewrite (from_flask_session_not_logged_in w Hs).
Qed.

Lemma must_be_moderator_anonymous (w : World) :
  session w !! "user_id" = None ->
  User.must_be_moderator w = (w, inl NotLoggedIn).
Proof.
  intros Hs. unfold User.must_be_moderator, bind.
  now rewrite (from_flask_session_not_logged_in w Hs).
Qed.

Lemma is_session_user_anonymous (w : World) (target : User.t) :
  session w !! "user_id" = None ->
  User.is_session_user target w = (w, inl NotLoggedIn).
Proof.
  intros Hs. unfold User.is_session_user, bind.
  now rewrite (session_user_id_none w Hs).
Qed.

Lemma user_delete_anonymous (w : World) (target : User.t) :
  session w !! "user_id" = None ->
  User.delete target w = (w, inl NotLoggedIn).
Proof.
  intros Hs. unfold User.delete, bind at 1.
  now rewrite (is_session_user_anonymous w target Hs).
Qed.

Lemma taxon_delete_anonymous (w : World) (taxon : Taxon.t) :
  session w !! "user_id" = None ->
  Taxon.delete taxon w = (w, inl NotLoggedIn).
Proof.
  intros Hs. unfold Taxon.delete, bind.
  now rewrite (from_flask_session_not_logged_in w Hs).
Qed.

Lemma must_be_administrator_stale (w : World) (identifier : value) :
  session w !! "user_id" = Some identifier ->
  User.from_id identifier w = (w, inl IdentifierNotFound) ->
  User.must_be_administrator w
  = (with_session w (delete "user_id" (session w)),
     inl (AttributeError "'NoneType' object has no attribute 'is_administrator'")).
Proof.
  intros Hs Hid. unfold User.must_be_administrator, bind.
  now rewrite (from_flask_session_stale w identifier Hs Hid).
Qed.

Lemma must_be_moderator_stale (w : World) (identifier : value) :
  session w !! "user_id" = Some identifier ->
  User.from_id identifier w = (w, inl IdentifierNotFound) ->
  User.must_be_moderator w
  = (with_session w (delete "user_id" (session w)),
     inl (AttributeError "'NoneType' object has no attribute 'is_moderator'")).
Proof.
  intros Hs Hid. unfold User.must_be_moderator, bind.
  now rewrite (from_flask_session_stale w identifier Hs Hid).
Qed.

Lemma taxon_delete_stale (w : World) (identifier : value) (taxon : Taxon.t) :
  session w !! "user_id" = Some identifier ->
  User.from_id identifier w = (w, inl IdentifierNotFound) ->
  Taxon.delete taxon w
  = (with_session w (delete "user_id" (session w)),
     inl (AttributeError "'NoneType' object has no attribute 'is_administrator'")).
Proof.
  intros Hs Hid. unfold Taxon.delete, bind.
  now rewrite (from_flask_session_stale w identifier Hs Hid).
Qed.

Lemma user_delete_session (w : World) (identifier : value) (target : User.t) :
  session w !! "user_id" = Some identifier ->
  User.delete target w
  = if value_eqb (VInt (User.get_id target)) identifier
    then UsersTable_delete (User._user target) w
    else (User.must_be_administrator ;;; UsersTable_delete (User._user target)) w.
Proof.
  intros Hs.
  unfold User.delete, User.is_session_user, bind at 1 2.
  rewrite (session_user_id_some _ _ Hs). unfold ret.
  now destruct (value_eqb (VInt (User.get_id target)) identifier).
Qed.

Lemma user_delete_stale (w : World) (identifier : value) (target : User.t) :
  session w !! "user_id" = Some identifier ->
  User.from_id identifier w = (w, inl IdentifierNotFound) ->
  User.delete target w
  = if value_eqb (VInt (User.get_id target)) identifier
    then UsersTable_delete (User._user target) w
    else (with_session w (delete "user_id" (session w)),
          inl (AttributeError "'NoneType' object has no attribute 'is_administrator'")).
Proof.
  intros Hs Hid. rewrite (user_delete_session w identifier target Hs).
  destruct (value_eqb (VInt (User.get_id target)) identifier); [reflexivity | ].
  unfold bind. now rewrite (must_be_administrator_stale w identifier Hs Hid).
Qed.

(** X6: with no ["user_id"] in the session, [session_user_id],
    [is_session_user], both role guards and both deletes fail with
    [NotLoggedIn], and none of them changes the session or the store. *)
Theorem anonymous_session_refused (w : World) (target : User.t) (taxon : Taxon.t) :
  session w !! "user_id" = None ->
  User.session_user_id w = (w, inl NotLoggedIn)
  /\ User.is_session_user target w = (w, inl NotLoggedIn)
  /\ User.must_be_administrator w = (w, inl NotLoggedIn)
  /\ User.must_be_moderator w = (w, inl NotLoggedIn)
  /\ User.delete target w = (w, inl NotLoggedIn)
  /\ Taxon.delete taxon w = (w, inl NotLoggedIn).
Proof.
  intros Hs.
  split; [exact (session_user_id_none w Hs) | ].
  split; [exact (is_session_user_anonymous w target Hs) | ].
  split; [exact (must_be_administrator_anonymous w Hs) | ].
  split; [exact (must_be_moderator_anonymous w Hs) | ].
  split; [exact (user_delete_anonymous w target Hs) | ].
  exact (taxon_delete_anonymous w taxon Hs).
Qed.

Lemma anonymous_session_refused_witness :
  User.delete (User.mk (mkUsersTable 7 "A" "" false false)) anonymous_world
  = (anonymous_world, inl NotLoggedIn)
  /\ Taxon.delete (Taxon.mk (mkTaxonTable 3 "T" "" 7)) anonymous_world
     = (anonymous_world, inl NotLoggedIn).
Proof.
  destruct (anonymous_session_refused anonymous_world
              (User.mk (mkUsersTable 7 "A" "" false false))
              (Taxon.mk (mkTaxonTable 3 "T" "" 7)) eq_refl)
    as (_ & _ & _ & _ & Hu & Ht).
  exact (conj Hu Ht).
Defined.

(** X7: the [/logout] route always answers with a redirect to ["/"] and
    never touches the store; after it the session is anonymous, so
    [from_flask_session] and both deletes fail with [NotLoggedIn]; and
    calling the route again changes nothing more. *)
Theorem logout_route_closes_session (w : World) (target : User.t) (taxon : Taxon.t) :
  exists w',
    logout_route w = (w', inr "/")
    /\ db w' = db w
    /\ User.from_flask_session w' = (w', inl NotLoggedIn)
    /\ User.delete target w' = (w', inl NotLoggedIn)
    /\ Taxon.delete taxon w' = (w', inl NotLoggedIn)
    /\ logout_route w' = (w', inr "/").
Proof.
  exists (with_session w (delete "user_id" (session w))).
  assert (Hs : session (with_session w (delete "user_id" (session w))) !! "user_id" = None)
    by apply lookup_delete_eq.
  split; [reflexivity | ]. split; [reflexivity | ].
  split; [exact (from_flask_session_not_logged_in _ Hs) | ].
  split; [exact (user_delete_anonymous _ target Hs) | ].
  split; [exact (taxon_delete_anonymous _ taxon Hs) | ].
  unfold logout_route, bind. rewrite logout_eq. unfold ret, with_session. simpl.
  now rewrite delete_delete_eq.
Qed.

(** X8: with a ["user_id"] that no row of the [users] table carries,
    both role guards and [Taxon.delete] clear ["user_id"] and fail with
    [AttributeError] on the [None] that [from_flask_session] returned,
    not with [NotLoggedIn] or [Unauthorized], and the store is
    untouched.  [User.delete] does the same unless the target's
    identifier equals the stale one: then it goes to the row's delete
    without resolving the session user. *)
Theorem stale_session_guards (w : World) (identifier : value)
        (target : User.t) (taxon : Taxon.t) :
  session w !! "user_id" = Some identifier ->
  User.from_id identifier w = (w, inl IdentifierNotFound) ->
  User.must_be_administrator w
  = (with_session w (delete "user_id" (session w)),
     inl (AttributeError "'NoneType' object has no attribute 'is_administrator'"))
  /\ User.must_be_moderator w
     = (with_session w (delete "user_id" (session w)),
        inl (AttributeError "'NoneType' object has no attribute 'is_moderator'"))
  /\ Taxon.delete taxon w
     = (with_session w (delete "user_id" (session w)),
        inl (AttributeError "'NoneType' object has no attribute 'is_administrator'"))
  /\ User.delete target w
     = if value_eqb (VInt (User.get_id target)) identifier
       then UsersTable_delete (User._user target) w
       else (with_session w (delete "user_id" (session w)),
             inl (AttributeError "'NoneType' object has no attribute 'is_administrator'")).
Proof.
  intros Hs Hid.
  split; [exact (must_be_administrator_stale w identifier Hs Hid) | ].
  split; [exact (must_be_moderator_stale w identifier Hs Hid) | ].
  split; [exact (taxon_delete_stale w identifier taxon Hs Hid) | ].
  exact (user_delete_stale w identifier target Hs Hid).
Qed.

Lemma stale_session_guards_witness :
  Taxon.delete (Taxon.mk (mkTaxonTable 3 "T" "" 7)) (example_world 8)
  = (anonymous_world,
     inl (AttributeError "'NoneType' object has no attribute 'is_administrator'"))
  /\ User.delete (User.mk (mkUsersTable 7 "A" "" false false)) (example_world 8)
     = (anonymous_world,
        inl (AttributeError "'NoneType' object has no attribute 'is_administrator'")).
Proof.
  destruct (stale_session_guards (example_world 8) (VInt 8)
              (User.mk (mkUsersTable 7 "A" "" false false))
              (Taxon.mk (mkTaxonTable 3 "T" "" 7)) eq_refl eq_refl)
    as (_ & _ & Ht & Hu).
  split.
  - rewrite Ht. vm_compute. reflexivity.
  - rewrite Hu. vm_compute. reflexivity.
Defined.

(** ** What a delete needs, and what it leaves *)

(** X9: on any session and any store, [Taxon.delete] removes the row
    only for a session user that resolves and is an administrator or the
    taxon's author; and whenever it raises, the store is as it was. *)
Theorem taxon_delete_sound (w w' : World) (taxon : Taxon.t) (r : exn + unit) :
  Taxon.delete taxon w = (w', r) ->
  match r with
  | inr _ =>
      (exists user,
          User.from_flask_session w = (w, inr (Some user))
          /\ (User.is_administrator user = true
              \/ User.get_id user = author_user_id taxon))
      /\ TaxonTable_delete (Taxon._taxon taxon) w = (w', r)
  | inl _ => db w' = db w
  end.
Proof.
  intros Hrun.
  destruct (session_trichotomy w)
    as [Hs | [(identifier & user & Hs & Hid) | (identifier & Hs & Hid)]].
  - rewrite (taxon_delete_anonymous w taxon Hs) in Hrun. now injection Hrun as <- <-.
  - rewrite (taxon_delete_valid w identifier user taxon Hs Hid) in Hrun.
    destruct (User.is_administrator user) eqn:Hadmin;
      [ | destruct (User.is_author_of user taxon) eqn:Hauthor ]; simpl in Hrun.
    + injection Hrun as <- <-. split; [ | reflexivity].
      exists user. split; [exact (from_flask_session_valid w identifier user Hs Hid) | now left].
    + injection Hrun as <- <-. split; [ | reflexivity].
      exists user. split; [exact (from_flask_session_valid w identifier user Hs Hid) | ].
      right. now apply Z.eqb_eq.
    + now injection Hrun as <- <-.
  - rewrite (taxon_delete_stale w identifier taxon Hs Hid) in Hrun.
    now injection Hrun as <- <-.
Qed.

Lemma taxon_delete_sound_witness :
  db (example_world 9) = db (example_world 9)
  /\ exists user,
      User.from_flask_session (example_world 7) = (example_world 7, inr (Some user))
      /\ (User.is_administrator user = true
          \/ User.get_id user = author_user_id (Taxon.mk (mkTaxonTable 3 "T" "" 7))).
Proof.
  split.
  - exact (taxon_delete_sound (example_world 9) (example_world 9)
             (Taxon.mk (mkTaxonTable 3 "T" "" 7)) (inl Unauthorized) eq_refl).
  - exact (proj1 (taxon_delete_sound (example_world 7) _
                    (Taxon.mk (mkTaxonTable 3 "T" "" 7)) (inr tt) eq_refl)).
Defined.

(** X10: on any session and any store, [User.delete] removes the row
    only when the session's ["user_id"] is the target's identifier or
    the session user resolves and is an administrator; and whenever it
    raises, the store is as it was. *)
Theorem user_delete_sound (w w' : World) (target : User.t) (r : exn + unit) :
  User.delete target w = (w', r) ->
  match r with
  | inr _ =>
      (session w !! "user_id" = Some (VInt (User.get_id target))
       \/ exists user,
           User.from_flask_session w = (w, inr (Some user))
           /\ User.is_administrator user = true)
      /\ UsersTable_delete (User._user target) w = (w', r)
  | inl _ => db w' = db w
  end.
Proof.
  intros Hrun.
  destruct (session_trichotomy w)
    as [Hs | [(identifier & user & Hs & Hid) | (identifier & Hs & Hid)]].
  - rewrite (user_delete_anonymous w target Hs) in Hrun. now injection Hrun as <- <-.
  - rewrite (user_delete_valid w identifier user target Hs Hid) in Hrun.
    destruct (from_id_found _ _ _ _ Hid) as (_ & Heq & _).
    destruct (Z.eqb (User.get_id target) (User.get_id user)) eqn:Hself;
      [ | destruct (User.is_administrator user) eqn:Hadmin ]; simpl in Hrun.
    + injection Hrun as <- <-. split; [ | reflexivity].
      left. apply Z.eqb_eq in Hself. now rewrite Hs, Heq, Hself.
    + injection Hrun as <- <-. split; [ | reflexivity].
      right. exists user.
      split; [exact (from_flask_session_valid w identifier user Hs Hid) | exact Hadmin].
    + now injection Hrun as <- <-.
  - rewrite (user_delete_stale w identifier target Hs Hid) in Hrun.
    destruct (value_eqb (VInt (User.get_id target)) identifier) eqn:Hself.
    + injection Hrun as <- <-. split; [ | reflexivity].
      left. apply value_eqb_VInt in Hself. now rewrite Hs, Hself.
    + now injection Hrun as <- <-.
Qed.

Lemma user_delete_sound_witness :
  db (example_world 7) = db (example_world 7)
  /\ (session (example_world 9) !! "user_id" = Some (VInt 9)
      \/ exists user,
          User.from_flask_session (example_world 9) = (example_world 9, inr (Some user))
          /\ User.is_administrator user = true).
Proof.
  split.
  - exact (user_delete_sound (example_world 7) (example_world 7)
             (User.mk (mkUsersTable 9 "B" "" false true)) (inl Unauthorized) eq_refl).
  - exact (proj1 (user_delete_sound (example_world 9) _
                    (User.mk (mkUsersTable 9 "B" "" false true)) (inr tt) eq_refl)).
Defined.

(** X11: a session that passes [must_be_administrator] may delete
    anything: the guard changed nothing, and [User.delete] on any user
    and [Taxon.delete] on any taxon are then the row's delete. *)
Theorem administrator_may_delete (w w' : World) :
  User.must_be_administrator w = (w', inr tt) ->
  w' = w
  /\ (forall target : User.t,
         User.delete target w = UsersTable_delete (User._user target) w)
  /\ (forall taxon : Taxon.t,
         Taxon.delete taxon w = TaxonTable_delete (Taxon._taxon taxon) w).
Proof.
  intros Hrun.
  destruct (session_trichotomy w)
    as [Hs | [(identifier & user & Hs & Hid) | (identifier & Hs & Hid)]].
  - rewrite (must_be_administrator_anonymous w Hs) in Hrun. discriminate Hrun.
  - rewrite (must_be_administrator_valid w identifier user Hs Hid) in Hrun.
    destruct (User.is_administrator user) eqn:Hadmin; [ | discriminate Hrun].
    injection Hrun as <-. split; [reflexivity | ]. split.
    + intros target. rewrite (user_delete_valid w identifier user target Hs Hid).
      now rewrite Hadmin, orb_true_r.
    + intros taxon. rewrite (taxon_delete_valid w identifier user taxon Hs Hid).
      now rewrite Hadmin.
  - rewrite (must_be_administrator_stale w identifier Hs Hid) in Hrun. discriminate Hrun.
Qed.

Lemma administrator_may_delete_witness :
  Taxon.delete (Taxon.mk (mkTaxonTable 3 "T" "" 7)) (example_world 1)
  = TaxonTable_delete (mkTaxonTable 3 "T" "" 7) (example_world 1).
Proof.
  exact (proj2 (proj2 (administrator_may_delete (example_world 1) (example_world 1) eq_refl))
           (Taxon.mk (mkTaxonTable 3 "T" "" 7))).
Defined.

(** X12: [from_flask_session], the two role guards and the two deletes
    read and write no session key but ["user_id"]: on any session and
    any store, and whatever they return or raise, every other key keeps
    its value. *)
Theorem guards_session_frame (w : World) (key : string)
        (target : User.t) (taxon : Taxon.t) :
  key <> "user_id" ->
  session (fst (User.from_flask_session w)) !! key = session w !! key
  /\ session (fst (User.must_be_administrator w)) !! key = session w !! key
  /\ session (fst (User.must_be_moderator w)) !! key = session w !! key
  /\ session (fst (User.delete target w)) !! key = session w !! key
  /\ session (fst (Taxon.delete taxon w)) !! key = session w !! key.
Proof.
  intros Hkey.
  assert (Hcleared : session (with_session w (delete "user_id" (session w))) !! key
                     = session w !! key)
    by (simpl; apply lookup_delete_ne; congruence).
  destruct (session_trichotomy w)
    as [Hs | [(identifier & user & Hs & Hid) | (identifier & Hs & Hid)]].
  - rewrite (from_flask_session_not_logged_in w Hs),
      (must_be_administrator_anonymous w Hs), (must_be_moderator_anonymous w Hs),
      (user_delete_anonymous w target Hs), (taxon_delete_anonymous w taxon Hs).
    now repeat split.
  - rewrite (from_flask_session_valid w identifier user Hs Hid),
      (must_be_administrator_valid w identifier user Hs Hid),
      (must_be_moderator_valid w identifier user Hs Hid),
      (user_delete_valid w identifier user target Hs Hid),
      (taxon_delete_valid w identifier user taxon Hs Hid).
    split; [reflexivity | ]. split; [reflexivity | ]. split; [reflexivity | ].
    split.
    + now destruct (_ || _).
    + now destruct (_ || _).
  - rewrite (from_flask_session_stale w identifier Hs Hid),
      (must_be_administrator_stale w identifier Hs Hid),
      (must_be_moderator_stale w identifier Hs Hid),
      (user_delete_stale w identifier target Hs Hid),
      (taxon_delete_stale w identifier taxon Hs Hid).
    split; [exact Hcleared | ]. split; [exact Hcleared | ]. split; [exact Hcleared | ].
    split; [ | exact Hcleared].
    destruct (value_eqb _ _); [reflexivity | exact Hcleared].
Qed.

Lemma guards_session_frame_witness :
  session (fst (Taxon.delete (Taxon.mk (mkTaxonTable 3 "T" "" 7)) (example_world 8))) !! "lang"
  = Some (VStr "fr").
Proof.
  exact (proj2 (proj2 (proj2 (proj2
           (guards_session_frame (example_world 8) "lang"
              (User.mk (mkUsersTable 7 "A" "" false false))
              (Taxon.mk (mkTaxonTable 3 "T" "" 7))
              ltac:(discriminate)))))).
Defined.

(** ** After a delete *)

Lemma find_filter {A} (f g : A -> bool) (l : list A) :
  (forall x, f x = true -> g x = true) ->
  List.find f (List.filter g l) = List.find f l.
Proof.
  intros Hfg. induction l as [ | a l IH]; simpl; [reflexivity | ].
  destruct (f a) eqn:Hf.
  - rewrite (Hfg a Hf). simpl. now rewrite Hf.
  - destruct (g a); simpl; [now rewrite Hf | exact IH].
Qed.

Lemma taxon_delete_ok (w w' : World) (taxon : Taxon.t) :
  Taxon.delete taxon w = (w', inr tt) ->
  TaxonTable_delete (Taxon._taxon taxon) w = (w', inr tt).
Proof.
  intros Hrun.
  destruct (session_trichotomy w)
    as [Hs | [(identifier & user & Hs & Hid) | (identifier & Hs & Hid)]].
  - rewrite (taxon_delete_anonymous w taxon Hs) in Hrun. discriminate Hrun.
  - rewrite (taxon_delete_valid w identifier user taxon Hs Hid) in Hrun.
    destruct (_ || _); [exact Hrun | discriminate Hrun].
  - rewrite (taxon_delete_stale w identifier taxon Hs Hid) in Hrun. discriminate Hrun.
Qed.

(** X13: a user who deletes their own record is not logged out.  When
    the session's ["user_id"] is the target's identifier, [User.delete]
    succeeds and leaves the session as it was, so [is_authenticated]
    still answers [true]; but no row carries that identifier any more,
    so the next [from_flask_session] clears ["user_id"] and returns
    [None]. *)
Theorem self_delete_keeps_session (w : World) (target : User.t) :
  session w !! "user_id" = Some (VInt (User.get_id target)) ->
  exists w',
    User.delete target w = (w', inr tt)
    /\ session w' = session w
    /\ User.is_authenticated w' = (w', inr true)
    /\ User.from_id (VInt (User.get_id target)) w' = (w', inl IdentifierNotFound)
    /\ User.from_flask_session w'
       = (with_session w' (delete "user_id" (session w')), inr None).
Proof.
  intros Hs.
  exists (fst (UsersTable_delete (User._user target) w)).
  assert (Hgone : User.from_id (VInt (User.get_id target))
                    (fst (UsersTable_delete (User._user target) w))
                  = (fst (UsersTable_delete (User._user target) w),
                     inl IdentifierNotFound)).
  { unfold User.from_id, bind, UsersTable_from_id. simpl.
    rewrite find_absent; [reflexivity | ].
    intros row Hin. apply filter_In in Hin as [_ Hne].
    apply negb_true_iff in Hne. exact Hne. }
  split.
  - rewrite (user_delete_session w _ target Hs). simpl.
    now rewrite Z.eqb_refl.
  - split; [reflexivity | ]. split; [ | split; [exact Hgone | ]].
    + unfold User.is_authenticated, session_contains. simpl.
      rewrite bool_decide_eq_true_2; [reflexivity | rewrite Hs; eauto].
    + exact (from_flask_session_stale (fst (UsersTable_delete (User._user target) w))
               (VInt (User.get_id target)) Hs Hgone).
Qed.

Lemma self_delete_keeps_session_witness :
  exists w',
    User.delete (User.mk (mkUsersTable 7 "A" "" false false)) (example_world 7)
    = (w', inr tt)
    /\ session w' = session (example_world 7)
    /\ User.is_authenticated w' = (w', inr true)
    /\ User.from_id (VInt 7) w' = (w', inl IdentifierNotFound)
    /\ User.from_flask_session w'
       = (with_session w' (delete "user_id" (session w')), inr None).
Proof.
  exact (self_delete_keeps_session (example_world 7)
           (User.mk (mkUsersTable 7 "A" "" false false)) eq_refl).
Defined.

(** X14: after a [Taxon.delete] that succeeded, [Taxon.from_id] on the
    taxon's identifier fails with [IdentifierNotFound]; the lookup of
    any other identifier answers as before the delete; and the [users]
    table and the session are untouched. *)
Theorem taxon_delete_then_lookup (w w' : World) (taxon : Taxon.t) :
  Taxon.delete taxon w = (w', inr tt) ->
  Taxon.from_id (VInt (taxons_id (Taxon._taxon taxon))) w' = (w', inl IdentifierNotFound)
  /\ (forall identifier,
         identifier <> VInt (taxons_id (Taxon._taxon taxon)) ->
         snd (Taxon.from_id identifier w') = snd (Taxon.from_id identifier w))
  /\ users (db w') = users (db w)
  /\ session w' = session w.
Proof.
  intros Hrun. apply taxon_delete_ok in Hrun.
  injection Hrun as <-.
  split; [ | split; [ | now split]].
  - unfold Taxon.from_id, bind, TaxonTable_from_id. simpl.
    rewrite find_absent; [reflexivity | ].
    intros row Hin. apply filter_In in Hin as [_ Hne].
    apply negb_true_iff in Hne. exact Hne.
  - intros identifier Hother.
    unfold Taxon.from_id, bind, ret, TaxonTable_from_id. simpl.
    rewrite find_filter.
    + now destruct (List.find _ _).
    + intros row Hrow. apply value_eqb_VInt in Hrow.
      apply negb_true_iff, Z.eqb_neq. intros Heq. apply Hother.
      now rewrite Hrow, Heq.
Qed.

Lemma taxon_delete_then_lookup_witness :
  Taxon.from_id (VInt 3)
    (fst (TaxonTable_delete (mkTaxonTable 3 "T" "" 7) (example_world 7)))
  = (fst (TaxonTable_delete (mkTaxonTable 3 "T" "" 7) (example_world 7)),
     inl IdentifierNotFound).
Proof.
  exact (proj1 (taxon_delete_then_lookup (example_world 7) _
                  (Taxon.mk (mkTaxonTable 3 "T" "" 7)) eq_refl)).
Defined.

(** ** The abstract user *)

(** X15: the constructor of the abstract user raises [ValueError], with
    a message that names the identifier, exactly when [is_valid_user_id]
    rejects it; otherwise the object it builds reports that identifier,
    and is the author of a sample exactly when the sample's author
    identifier is the one the constructor was given. *)
Theorem constructed_user_author (is_valid_user_id : Z -> bool) (user_id : Z) :
  (is_valid_user_id user_id = false ->
   UserInterface.init is_valid_user_id user_id
   = inl (ValueError ("User ID #" ++ pretty user_id ++ " does not exist.")))
  /\ (is_valid_user_id user_id = true ->
      exists self,
        UserInterface.init is_valid_user_id user_id = inr self
        /\ UserInterface.get_user_id self = user_id
        /\ forall (S : Type) (HS : UserInterface.Sample S) (sample : S),
            UserInterface.is_author_of_sample self sample = true
            <-> UserInterface.get_author_user_id sample = user_id).
Proof.
  unfold UserInterface.init. split; intros ->; simpl; [reflexivity | ].
  eexists. split; [reflexivity | ]. split; [reflexivity | ].
  intros S HS sample. unfold UserInterface.is_author_of_sample. simpl.
  rewrite Z.eqb_eq. split; intros H; now symmetry.
Qed.

Lemma constructed_user_author_witness :
  UserInterface.init (fun n => Z.ltb 0 n) (-5) = inl (ValueError "User ID #-5 does not exist.")
  /\ exists self,
      UserInterface.init (fun n => Z.ltb 0 n) 7 = inr self
      /\ UserInterface.get_user_id self = 7.
Proof.
  split.
  - exact (proj1 (constructed_user_author (fun n => Z.ltb 0 n) (-5)) eq_refl).
  - destruct (proj2 (constructed_user_author (fun n => Z.ltb 0 n) 7) eq_refl)
      as (self & Hinit & Hid & _).
    exists self. exact (conj Hinit Hid).
Defined.

Lemma user_delete_ok (w w' : World) (target : User.t) :
  User.delete target w = (w', inr tt) ->
  UsersTable_delete (User._user target) w = (w', inr tt).
Proof.
  intros Hrun.
  destruct (session_trichotomy w)
    as [Hs | [(identifier & user & Hs & Hid) | (identifier & Hs & Hid)]].
  - rewrite (user_delete_anonymous w target Hs) in Hrun. discriminate Hrun.
  - rewrite (user_delete_valid w identifier user target Hs Hid) in Hrun.
    destruct (_ || _); [exact Hrun | discriminate Hrun].
  - rewrite (user_delete_stale w identifier target Hs Hid) in Hrun.
    destruct (value_eqb _ _); [exact Hrun | discriminate Hrun].
Qed.

(** X16: after a [User.delete] that succeeded, [User.from_id] on the
    target's identifier fails with [IdentifierNotFound] and the lookup
    of any other identifier answers as before; the session and the
    [taxons] table are untouched, so the taxa of the deleted user stay,
    their author identifier now that of no user. *)
Theorem user_delete_then_lookup (w w' : World) (target : User.t) :
  User.delete target w = (w', inr tt) ->
  User.from_id (VInt (User.get_id target)) w' = (w', inl IdentifierNotFound)
  /\ (forall identifier,
         identifier <> VInt (User.get_id target) ->
         snd (User.from_id identifier w') = snd (User.from_id identifier w))
  /\ taxons (db w') = taxons (db w)
  /\ session w' = session w
  /\ (forall taxon : Taxon.t,
         author_user_id taxon = User.get_id target ->
         forall user, In (User._user user) (users (db w')) ->
                      User.is_author_of user taxon = false).
Proof.
  intros Hrun. apply user_delete_ok in Hrun.
  injection Hrun as <-.
  split; [ | split; [ | split; [reflexivity | split; [reflexivity | ]]]].
  - unfold User.from_id, bind, UsersTable_from_id. simpl.
    rewrite find_absent; [reflexivity | ].
    intros row Hin. apply filter_In in Hin as [_ Hne].
    apply negb_true_iff in Hne. exact Hne.
  - intros identifier Hother.
    unfold User.from_id, bind, ret, UsersTable_from_id. simpl.
    rewrite find_filter.
    + now destruct (List.find _ _).
    + intros row Hrow. apply value_eqb_VInt in Hrow.
      apply negb_true_iff, Z.eqb_neq. intros Heq. apply Hother.
      unfold User.get_id. now rewrite Hrow, Heq.
  - intros taxon Hauthor user Hin. simpl in Hin.
    apply filter_In in Hin as [_ Hne].
    apply negb_true_iff in Hne.
    unfold User.is_author_of. rewrite Hauthor. exact Hne.
Qed.

Lemma user_delete_then_lookup_witness :
  User.from_id (VInt 7)
    (fst (UsersTable_delete (mkUsersTable 7 "A" "" false false) (example_world 1)))
  = (fst (UsersTable_delete (mkUsersTable 7 "A" "" false false) (example_world 1)),
     inl IdentifierNotFound)
  /\ taxons (db (fst (UsersTable_delete (mkUsersTable 7 "A" "" false false)
                        (example_world 1))))
     = [mkTaxonTable 3 "T" "" 7].
Proof.
  destruct (user_delete_then_lookup (example_world 1) _
              (User.mk (mkUsersTable 7 "A" "" false false)) eq_refl)
    as (Hgone & _ & Htaxons & _).
  exact (conj Hgone Htaxons).
Defined.
